(** * killod.py: kill OneDrive, then reopen it

    A shallow embedding of [killod.py].  The script is a straight line of
    [print] statements around two [subprocess.run] calls, so the embedding is
    a program in a small state-and-exception monad over an abstract host
    operating system.  The state carries the host's world and the trace of
    what the process did: what it printed, which children it started and
    when they were reaped. *)

From Stdlib Require Import ZArith List String Ascii Bool Lia DecimalString.
From Stdlib.Strings Require Import Byte.
Import ListNotations.
Open Scope string_scope.

(** ** The Python values the script handles *)

Module Py.

(** A Python [bytes] object. *)
Definition bytes := list byte.

(** [b"..."] written with an ASCII literal. *)
Definition b (s : string) : bytes := list_byte_of_string s.

(** The text a terminal shows for bytes that are plain ASCII. *)
Definition decode (data : bytes) : string := string_of_list_byte data.

Definition hexdigit (n : N) : ascii :=
  match n with
  | 0%N => "0" | 1%N => "1" | 2%N => "2" | 3%N => "3"
  | 4%N => "4" | 5%N => "5" | 6%N => "6" | 7%N => "7"
  | 8%N => "8" | 9%N => "9" | 10%N => "a" | 11%N => "b"
  | 12%N => "c" | 13%N => "d" | 14%N => "e" | _ => "f"
  end%char.

(** [\xhh], two lower-case hexadecimal digits. *)
Definition hex_escape (c : ascii) : string :=
  let n := N_of_ascii c in
  String "\" (String "x"
    (String (hexdigit (N.shiftr n 4))
       (String (hexdigit (N.land n 15)) EmptyString))).

Definition has_char (c : ascii) (s : string) : bool :=
  existsb (Ascii.eqb c) (list_ascii_of_string s).

(** Both [repr] functions prefer the single quote and switch to the double
    quote when the text holds a single quote and no double quote. *)
Definition SQ : ascii := "'"%char.
Definition DQ : ascii := ascii_of_N 34.

Definition pick_quote (s : string) : ascii :=
  if has_char SQ s && negb (has_char DQ s) then DQ else SQ.

Definition HT : ascii := ascii_of_N 9.
Definition LF : ascii := ascii_of_N 10.
Definition CR : ascii := ascii_of_N 13.

(** The escapes [repr] shares between [bytes] and [str]; [plain] says
    which of the remaining characters are copied as they are. *)
Definition escape_char (plain : N -> bool) (quote c : ascii) : string :=
  if Ascii.eqb c quote || Ascii.eqb c "\" then String "\" (String c EmptyString)
  else if Ascii.eqb c HT then "\t"
  else if Ascii.eqb c LF then "\n"
  else if Ascii.eqb c CR then "\r"
  else if plain (N_of_ascii c) then String c EmptyString
  else hex_escape c.

Fixpoint escape (plain : N -> bool) (quote : ascii) (s : string) : string :=
  match s with
  | EmptyString => EmptyString
  | String c rest => escape_char plain quote c ++ escape plain quote rest
  end.

Definition quoted (plain : N -> bool) (s : string) : string :=
  let q := pick_quote s in
  String q (escape plain q s ++ String q EmptyString).

(** [bytes.__repr__]: bytes below the space and from 0x7f on are written
    [\xhh]. *)
Definition bytes_plain (n : N) : bool := (32 <=? n)%N && (n <? 127)%N.

Definition repr_bytes (data : bytes) : string :=
  String "b" (quoted bytes_plain (string_of_list_byte data)).

(** [str.__repr__] on code points below 256 (the script's own literals are
    ASCII): the control characters, 0x7f to 0xa0 and the soft hyphen 0xad
    are not printable and are written [\xhh]. *)
Definition str_plain (n : N) : bool :=
  (32 <=? n)%N && negb ((127 <=? n)%N && (n <=? 160)%N) && negb (n =? 173)%N.

Definition repr_str (s : string) : string := quoted str_plain s.

(** [int.__repr__]. *)
Definition repr_int (z : Z) : string := NilZero.string_of_int (Z.to_int z).

(** [list.__repr__] of a list of [str]. *)
Definition repr_list (l : list string) : string :=
  "[" ++ String.concat ", " (map repr_str l) ++ "]".

(** [subprocess.CompletedProcess]: a stream that was not captured is
    [None]. *)
Record CompletedProcess := mkCompletedProcess {
  args : list string;
  returncode : Z;
  stdout : option bytes;
  stderr : option bytes
}.

(** [CompletedProcess.__repr__]: the streams are listed only when they are
    not [None]. *)
Definition repr_CompletedProcess (r : CompletedProcess) : string :=
  let field (name : string) (o : option bytes) : list string :=
    match o with
    | Some data => [name ++ "=" ++ repr_bytes data]
    | None => []
    end in
  "CompletedProcess("
    ++ String.concat ", "
         (["args=" ++ repr_list (args r);
           "returncode=" ++ repr_int (returncode r)]
          ++ field "stdout" (stdout r) ++ field "stderr" (stderr r))
    ++ ")".

(** The objects the script hands to [print]. *)
Inductive object :=
| Str (s : string)
| Completed (r : CompletedProcess).

(** [str(o)], the text [print(o)] writes before its newline. *)
Definition str (o : object) : string :=
  match o with
  | Str s => s
  | Completed r => repr_CompletedProcess r
  end.

(** Truth value of [result.stdout] in [if result.stdout:]: [None] and the
    empty [bytes] are false. *)
Definition truthy (o : option bytes) : bool :=
  match o with
  | Some (_ :: _) => true
  | _ => false
  end.

(** The exceptions [subprocess.run] raises when the child cannot be
    started. *)
Inductive exception :=
| FileNotFoundError
| PermissionError
| OSError (errno : Z).

End Py.

Open Scope list_scope.

(** ** The host operating system *)

(** What a child process leaves behind once it has run: the status the
    parent reaps (an exit code, or the negated signal number) and what it
    wrote on its two output streams. *)
Record ChildExit := mkChildExit {
  status : Z;
  wrote_stdout : Py.bytes;
  wrote_stderr : Py.bytes
}.

(** A host is a type of worlds with one operation: start the command [argv]
    and wait for it.  Either the command cannot be started, or it runs to
    its end; in both cases the world may have changed. *)
Definition Spawn (World : Type) : Type :=
  list string -> World -> (Py.exception + ChildExit) * World.

(** [subprocess.PIPE], or leaving the argument out ([None]): the child
    inherits the parent's stream. *)
Inductive Redirect := PIPE | Inherit.

Inductive Stream := Stdout | Stderr.

(** What the process does, in the order it does it: [print(o)] wrote
    [str(o)] and a newline; [subprocess.run(argv)] was called; the child
    wrote on a stream it inherited; the child ended and was waited for. *)
Inductive Event :=
| EvPrint (o : Py.object)
| EvRun (argv : list string)
| EvTerminal (fd : Stream) (data : Py.bytes)
| EvReaped (argv : list string) (code : Z).

(** The lines on the process's own standard output, one per [print]. *)
Fixpoint console (tr : list Event) : list string :=
  match tr with
  | [] => []
  | EvPrint o :: rest => Py.str o :: console rest
  | _ :: rest => console rest
  end.

(** The narration: the lines printed from string literals, leaving out the
    echoes, which print a [CompletedProcess]. *)
Fixpoint narration (tr : list Event) : list string :=
  match tr with
  | [] => []
  | EvPrint (Py.Str s) :: rest => s :: narration rest
  | _ :: rest => narration rest
  end.

(** The echoes: the results handed to [print]. *)
Fixpoint echoes (tr : list Event) : list Py.CompletedProcess :=
  match tr with
  | [] => []
  | EvPrint (Py.Completed r) :: rest => r :: echoes rest
  | _ :: rest => echoes rest
  end.

(** The commands [subprocess.run] was called with, in order. *)
Fixpoint invocations (tr : list Event) : list (list string) :=
  match tr with
  | [] => []
  | EvRun argv :: rest => argv :: invocations rest
  | _ :: rest => invocations rest
  end.

(** What the children wrote on the streams they inherited, in order: this
    goes to the terminal as it is, past the script. *)
Fixpoint terminal_writes (tr : list Event) : list (Stream * Py.bytes) :=
  match tr with
  | [] => []
  | EvTerminal fd data :: rest => (fd, data) :: terminal_writes rest
  | _ :: rest => terminal_writes rest
  end.




(** [e1] happens before [e2] in [tr]. *)
Definition before (e1 e2 : Event) (tr : list Event) : Prop :=
  exists l1 l2 l3, tr = l1 ++ e1 :: l2 ++ e2 :: l3.

(** The events of [tr] that come before the first event satisfying [p]
    (all of [tr] when there is none). *)
Fixpoint upto (p : Event -> bool) (tr : list Event) : list Event :=
  match tr with
  | [] => []
  | e :: rest => if p e then [] else e :: upto p rest
  end.

Definition is_run_of (argv : list string) (e : Event) : bool :=
  match e with
  | EvRun a => if list_eq_dec string_dec a argv then true else false
  | _ => false
  end.

(** How the interpreter ends: status 0 when the script runs off its last
    statement, 1 with a traceback when an exception reaches the top. *)
Inductive Ending :=
| Finished
| Uncaught (e : Py.exception).

Definition exit_status (e : Ending) : Z :=
  match e with
  | Finished => 0
  | Uncaught _ => 1
  end.

(** ** Hosts to run the script on *)

(** A host without state, which answers by the name of the command. *)
Definition fixed_host (kill launch : Py.exception + ChildExit) : Spawn unit :=
  fun argv w =>
    (match argv with
     | "killall" :: _ => kill
     | "open" :: _ => launch
     | _ => inl Py.FileNotFoundError
     end, w).

(** What [killall] leaves when no process has the name: status 1 and a
    complaint on its standard error. *)
Definition nothing_to_kill : ChildExit :=
  mkChildExit 1 [] (Py.b "No matching processes belonging to you were found").

(** A command that succeeds without a word. *)
Definition done : ChildExit := mkChildExit 0 [] [].

(** A Mac whose world is the number of OneDrive processes running.
    [killall] ends them all, and fails when there is none; [open -a] starts
    the application unless it runs already. *)
Definition mac : Spawn nat :=
  fun argv n =>
    match argv with
    | ["killall"; "OneDrive"] =>
        match n with
        | O => (inr nothing_to_kill, O)
        | S _ => (inr done, O)
        end
    | ["open"; "-a"; "OneDrive"] => (inr done, Nat.max 1 n)
    | _ => (inl Py.FileNotFoundError, n)
    end.

(** A host whose two commands report on their standard output. *)
Definition killed_one : ChildExit :=
  mkChildExit 0 (Py.b "killed 1 process") [].

Definition launched : ChildExit :=
  mkChildExit 3 (Py.b "x") (Py.b "warning").

Definition chatty : Spawn unit := fixed_host (inr killed_one) (inr launched).

(** What the script can tell of the answer to a call: the exception, or the
    return code and the captured standard output. *)
Definition observed (r : Py.exception + ChildExit)
  : Py.exception + (Z * Py.bytes) :=
  match r with
  | inl e => inl e
  | inr c => inr (status c, wrote_stdout c)
  end.

(** A machine that has neither command. *)
Definition bare : Spawn unit := fun _ w => (inl Py.FileNotFoundError, w).

(** A Linux machine: it has [killall], which finds no process of the name,
    and it has no [open]. *)
Definition linux : Spawn unit :=
  fixed_host (inr nothing_to_kill) (inl Py.FileNotFoundError).

(** ** Lines *)

(** The characters that end a line on the console. *)
Definition line_break (c : ascii) : bool :=
  Ascii.eqb c Py.LF || Ascii.eqb c Py.CR.

(** A text that stays on one line. *)
Fixpoint one_line (s : string) : bool :=
  match s with
  | EmptyString => true
  | String c rest => negb (line_break c) && one_line rest
  end.

(** A [plain] test of [repr] that lets through only characters from the
    space on. *)
Definition printable_only (plain : N -> bool) : Prop :=
  forall n, plain n = true -> (32 <= n)%N.

(** ** The script *)

Definition separator : string := "----------------".
Definition kill_argv : list string := ["killall"; "OneDrive"].
Definition launch_argv : list string := ["open"; "-a"; "OneDrive"].

(** The texts of the narration, each once. *)
Definition narration_texts : list string :=
  [separator; "Killing OneDrive..."; "OneDrive Killed";
   "Opening OneDrive..."; "OneDrive open"].

Section Killod.

Variable World : Type.
Variable spawn : Spawn World.

(** The running interpreter: the host's world and what happened so far. *)
Record Process := mkProcess {
  world : World;
  trace : list Event
}.

(** Statements change the process and may raise. *)
Definition M (A : Type) : Type := Process -> (Py.exception + A) * Process.

Definition ret {A : Type} (a : A) : M A := fun p => (inr a, p).

Definition bind {A B : Type} (m : M A) (k : A -> M B) : M B :=
  fun p =>
    match m p with
    | (inr a, p') => k a p'
    | (inl e, p') => (inl e, p')
    end.

Local Notation "x <- m ;; k" := (bind m (fun x => k))
  (at level 61, m at next level, right associativity).
Local Notation "m ;; k" := (bind m (fun _ => k))
  (at level 61, right associativity).

Definition emit (e : Event) : M unit :=
  fun p => (inr tt, mkProcess (world p) (trace p ++ [e])).

(** [print(o)]. *)
Definition print (o : Py.object) : M unit := emit (EvPrint o).

(** Start [argv] on the host and wait for it. *)
Definition host_run (argv : list string) : M ChildExit :=
  fun p =>
    let (r, w) := spawn argv (world p) in
    (r, mkProcess w (trace p)).

(** What the child wrote on a stream it inherited reaches the terminal. *)
Definition passed_on (r : Redirect) (fd : Stream) (data : Py.bytes) : M unit :=
  match r with
  | Inherit => emit (EvTerminal fd data)
  | PIPE => ret tt
  end.

(** What the child wrote on a piped stream is collected for the caller. *)
Definition captured (r : Redirect) (data : Py.bytes) : option Py.bytes :=
  match r with
  | PIPE => Some data
  | Inherit => None
  end.

(** [subprocess.run(argv, stdout=out, stderr=err)]: blocks until the child
    has ended, and raises when the child cannot be started. *)
Definition subprocess_run (argv : list string) (out err : Redirect)
  : M Py.CompletedProcess :=
  emit (EvRun argv) ;;
  c <- host_run argv ;;
  passed_on out Stdout (wrote_stdout c) ;;
  passed_on err Stderr (wrote_stderr c) ;;
  emit (EvReaped argv (status c)) ;;
  ret (Py.mkCompletedProcess argv (status c)
         (captured out (wrote_stdout c)) (captured err (wrote_stderr c))).

(** [if c: m]. *)
Definition when (c : bool) (m : M unit) : M unit :=
  if c then m else ret tt.

(** killod.py, statement by statement. *)
Definition killod : M unit :=
  print (Py.Str "----------------") ;;
  print (Py.Str "Killing OneDrive...") ;;
  print (Py.Str "----------------") ;;
  result <- subprocess_run ["killall"; "OneDrive"] PIPE Inherit ;;
  when (Py.truthy (Py.stdout result))
    (print (Py.Completed result)) ;;
  print (Py.Str "OneDrive Killed") ;;
  print (Py.Str "----------------") ;;
  print (Py.Str "Opening OneDrive...") ;;
  print (Py.Str "----------------") ;;
  result <- subprocess_run ["open"; "-a"; "OneDrive"] PIPE Inherit ;;
  when (Py.truthy (Py.stdout result))
    (print (Py.Completed result)) ;;
  print (Py.Str "OneDrive open").

(** A whole run of the interpreter. *)
Record Run := mkRun {
  ending : Ending;
  events : list Event;
  world_after : World
}.

Definition python (script : M unit) (w : World) : Run :=
  match script (mkProcess w []) with
  | (inr _, p) => mkRun Finished (trace p) (world p)
  | (inl e, p) => mkRun (Uncaught e) (trace p) (world p)
  end.

Definition run_killod (w : World) : Run := python killod w.

(** *** The shape of a run, for stating the results *)

(** The object a call that captured its standard output returns. *)
Definition result_of (argv : list string) (c : ChildExit) : Py.CompletedProcess :=
  Py.mkCompletedProcess argv (status c) (Some (wrote_stdout c)) None.

(** The events of one call that returned [c]. *)
Definition call_events (argv : list string) (c : ChildExit) : list Event :=
  [EvRun argv; EvTerminal Stderr (wrote_stderr c); EvReaped argv (status c)].

(** The echo that follows a call: the result, when it captured something. *)
Definition echo_events (argv : list string) (c : ChildExit) : list Event :=
  match wrote_stdout c with
  | [] => []
  | _ :: _ => [EvPrint (Py.Completed (result_of argv c))]
  end.

(** The line an echo puts on the console. *)
Definition echo_lines (argv : list string) (c : ChildExit) : list string :=
  match wrote_stdout c with
  | [] => []
  | _ :: _ => [Py.repr_CompletedProcess (result_of argv c)]
  end.

Definition kill_notice : list Event :=
  [EvPrint (Py.Str separator); EvPrint (Py.Str "Killing OneDrive...");
   EvPrint (Py.Str separator)].

Definition launch_notice : list Event :=
  [EvPrint (Py.Str separator); EvPrint (Py.Str "Opening OneDrive...");
   EvPrint (Py.Str separator)].

Definition kill_phase (c : ChildExit) : list Event :=
  kill_notice ++ call_events kill_argv c ++ echo_events kill_argv c
    ++ [EvPrint (Py.Str "OneDrive Killed")].

Definition launch_phase (c : ChildExit) : list Event :=
  launch_notice ++ call_events launch_argv c ++ echo_events launch_argv c
    ++ [EvPrint (Py.Str "OneDrive open")].

(** The three ways a run can go: [killall] cannot be started; [killall]
    returns and [open] cannot be started; both return. *)
Inductive RunCase (w : World) : Run -> Prop :=
| KillRaises e w1 :
    spawn kill_argv w = (inl e, w1) ->
    RunCase w (mkRun (Uncaught e) (kill_notice ++ [EvRun kill_argv]) w1)
| LaunchRaises c1 e w1 w2 :
    spawn kill_argv w = (inr c1, w1) ->
    spawn launch_argv w1 = (inl e, w2) ->
    RunCase w (mkRun (Uncaught e)
                 (kill_phase c1 ++ launch_notice ++ [EvRun launch_argv]) w2)
| BothReturn c1 c2 w1 w2 :
    spawn kill_argv w = (inr c1, w1) ->
    spawn launch_argv w1 = (inr c2, w2) ->
    RunCase w (mkRun Finished (kill_phase c1 ++ launch_phase c2) w2).

(** *** Reading a trace piece by piece *)

Lemma console_app (l1 l2 : list Event) :
  console (l1 ++ l2) = console l1 ++ console l2.
Proof.
  induction l1 as [|[o| | |] l1 IH]; simpl; now rewrite ?IH.
Qed.

Lemma narration_app (l1 l2 : list Event) :
  narration (l1 ++ l2) = narration l1 ++ narration l2.
Proof.
  induction l1 as [|[[s|r]| | |] l1 IH]; simpl; now rewrite ?IH.
Qed.

Lemma echoes_app (l1 l2 : list Event) :
  echoes (l1 ++ l2) = echoes l1 ++ echoes l2.
Proof.
  induction l1 as [|[[s|r]| | |] l1 IH]; simpl; now rewrite ?IH.
Qed.

Lemma invocations_app (l1 l2 : list Event) :
  invocations (l1 ++ l2) = invocations l1 ++ invocations l2.
Proof.
  induction l1 as [|[o| | |] l1 IH]; simpl; now rewrite ?IH.
Qed.

Lemma terminal_writes_app (l1 l2 : list Event) :
  terminal_writes (l1 ++ l2) = terminal_writes l1 ++ terminal_writes l2.
Proof.
  induction l1 as [|[o| | |] l1 IH]; simpl; now rewrite ?IH.
Qed.

(** An event that occurs once splits the trace in one way only. *)
Lemma split_unique (x : Event) (l1 l2 pre post : list Event) :
  ~ In x l1 -> ~ In x l2 ->
  l1 ++ x :: l2 = pre ++ x :: post ->
  pre = l1 /\ post = l2.
Proof.
  intros H1 H2. revert pre.
  induction l1 as [|a l1 IH]; intros [|b pre] Heq; simpl in *.
  - now inversion Heq.
  - inversion Heq; subst. exfalso. apply H2.
    apply in_or_app. right. now left.
  - inversion Heq; subst. exfalso. apply H1. now left.
  - inversion Heq; subst.
    destruct (IH (fun H => H1 (or_intror H)) pre H3) as [-> ->]. now split.
Qed.

(** The echo of a call prints a result, never a narration line, and
    starts no command. *)
Lemma echo_events_narration (argv : list string) (c : ChildExit) :
  narration (echo_events argv c) = [].
Proof.
  unfold echo_events. now destruct (wrote_stdout c).
Qed.

Lemma echo_events_invocations (argv : list string) (c : ChildExit) :
  invocations (echo_events argv c) = [].
Proof.
  unfold echo_events. now destruct (wrote_stdout c).
Qed.

Lemma echo_events_terminal_writes (argv : list string) (c : ChildExit) :
  terminal_writes (echo_events argv c) = [].
Proof.
  unfold echo_events. now destruct (wrote_stdout c).
Qed.

Lemma echo_events_no_run (argv argv' : list string) (c : ChildExit) :
  ~ In (EvRun argv') (echo_events argv c).
Proof.
  unfold echo_events. destruct (wrote_stdout c); simpl; intuition discriminate.
Qed.

Lemma echo_events_lines (argv : list string) (c : ChildExit) :
  console (echo_events argv c) = echo_lines argv c.
Proof.
  unfold echo_events, echo_lines. now destruct (wrote_stdout c).
Qed.

Lemma echo_events_iff (argv : list string) (c : ChildExit) :
  In (result_of argv c) (echoes (echo_events argv c)) <-> wrote_stdout c <> [].
Proof.
  unfold echo_events. destruct (wrote_stdout c) as [|b0 out] eqn:Hout; simpl.
  - intuition.
  - split; [discriminate | now left].
Qed.

Lemma result_of_argv (argv argv' : list string) (c c' : ChildExit) :
  result_of argv c = result_of argv' c' -> argv = argv'.
Proof.
  unfold result_of. now inversion 1.
Qed.


Lemma narration_kill_phase (c : ChildExit) :
  narration (kill_phase c)
  = [separator; "Killing OneDrive..."; separator; "OneDrive Killed"].
Proof.
  unfold kill_phase.
  now rewrite !narration_app, echo_events_narration.
Qed.

Lemma narration_launch_phase (c : ChildExit) :
  narration (launch_phase c)
  = [separator; "Opening OneDrive..."; separator; "OneDrive open"].
Proof.
  unfold launch_phase.
  now rewrite !narration_app, echo_events_narration.
Qed.

Lemma echo_lines_observed (argv : list string) (c c' : ChildExit) :
  observed (inr c) = observed (inr c') ->
  echo_lines argv c = echo_lines argv c'.
Proof.
  unfold observed, echo_lines, result_of.
  intros Hobs. injection Hobs as Hstatus Hout.
  now rewrite Hstatus, Hout.
Qed.

Lemma console_kill_phase (c : ChildExit) :
  console (kill_phase c)
  = [separator; "Killing OneDrive..."; separator]
      ++ echo_lines kill_argv c ++ ["OneDrive Killed"].
Proof.
  unfold kill_phase. now rewrite !console_app, echo_events_lines.
Qed.

Lemma console_launch_phase (c : ChildExit) :
  console (launch_phase c)
  = [separator; "Opening OneDrive..."; separator]
      ++ echo_lines launch_argv c ++ ["OneDrive open"].
Proof.
  unfold launch_phase. now rewrite !console_app, echo_events_lines.
Qed.

(** *** Every run, by cases on the host's answers *)

(** Unfold the script down to the host's answers. *)
Ltac run_script :=
  unfold run_killod, python, killod, subprocess_run, host_run, print, emit,
    bind, ret, when, passed_on, captured; simpl.

(** The host cannot start [killall]. *)
Lemma run_kill_raises (w w1 : World) (e : Py.exception) :
  spawn kill_argv w = (inl e, w1) ->
  run_killod w = mkRun (Uncaught e) (kill_notice ++ [EvRun kill_argv]) w1.
Proof.
  intros Hkill. run_script.
  unfold kill_argv in Hkill. rewrite Hkill. reflexivity.
Qed.

(** [killall] returns, and the host cannot start [open]. *)
Lemma run_launch_raises (w w1 w2 : World) (c1 : ChildExit) (e : Py.exception) :
  spawn kill_argv w = (inr c1, w1) ->
  spawn launch_argv w1 = (inl e, w2) ->
  run_killod w
  = mkRun (Uncaught e)
      (kill_phase c1 ++ launch_notice ++ [EvRun launch_argv]) w2.
Proof.
  intros Hkill Hlaunch. run_script.
  unfold kill_argv in Hkill. unfold launch_argv in Hlaunch.
  rewrite Hkill. simpl.
  unfold kill_phase, echo_events, result_of.
  destruct (wrote_stdout c1) as [|b1 out1]; simpl; rewrite Hlaunch; reflexivity.
Qed.

(** Both commands return. *)
Lemma run_returns (w w1 w2 : World) (c1 c2 : ChildExit) :
  spawn kill_argv w = (inr c1, w1) ->
  spawn launch_argv w1 = (inr c2, w2) ->
  run_killod w = mkRun Finished (kill_phase c1 ++ launch_phase c2) w2.
Proof.
  intros Hkill Hlaunch. run_script.
  unfold kill_argv in Hkill. unfold launch_argv in Hlaunch.
  rewrite Hkill. simpl.
  unfold kill_phase, launch_phase, echo_events, result_of.
  destruct (wrote_stdout c1) as [|b1 out1]; simpl; rewrite Hlaunch; simpl;
    destruct (wrote_stdout c2) as [|b2 out2]; reflexivity.
Qed.

Lemma run_cases (w : World) : RunCase w (run_killod w).
Proof.
  destruct (spawn kill_argv w) as [[e1 | c1] w1] eqn:Hkill.
  - rewrite (run_kill_raises _ _ _ Hkill). now constructor.
  - destruct (spawn launch_argv w1) as [[e2 | c2] w2] eqn:Hlaunch.
    + rewrite (run_launch_raises _ _ _ _ _ Hkill Hlaunch).
      now apply LaunchRaises with (w1 := w1).
    + rewrite (run_returns _ _ _ _ _ Hkill Hlaunch).
      now apply BothReturn with (w1 := w1).
Qed.

(** *** The transcript *)

(** C1: when [killall] and [open] both return with nothing on their
    captured standard output, the script prints the eight narration lines
    (separator, Killing OneDrive..., separator, OneDrive Killed, separator,
    Opening OneDrive..., separator, OneDrive open) and nothing else, and
    the interpreter ends with status 0. *)
Theorem silent_run_transcript (w w1 w2 : World) (c1 c2 : ChildExit) :
  spawn kill_argv w = (inr c1, w1) ->
  spawn launch_argv w1 = (inr c2, w2) ->
  wrote_stdout c1 = [] ->
  wrote_stdout c2 = [] ->
  console (events (run_killod w))
  = [separator; "Killing OneDrive..."; separator; "OneDrive Killed";
     separator; "Opening OneDrive..."; separator; "OneDrive open"]
  /\ ending (run_killod w) = Finished
  /\ exit_status (ending (run_killod w)) = 0%Z.
Proof.
  intros Hkill Hlaunch Hout1 Hout2.
  rewrite (run_returns _ _ _ _ _ Hkill Hlaunch).
  unfold kill_phase, launch_phase, echo_events.
  rewrite Hout1, Hout2. simpl. auto.
Qed.

(** *** Order of the two calls *)

(** C2: wherever the call of [open] stands in the trace of a run, all that
    comes before it is the whole kill phase (the kill notice, the call of
    [killall] from its start to the reaping of the child, the echo of its
    result when one is due, the line OneDrive Killed) and then the launch
    notice; [killall] was called once, before, and no call follows. *)
Theorem launch_after_kill_handled (w : World) (pre post : list Event) :
  events (run_killod w) = pre ++ EvRun launch_argv :: post ->
  exists (c1 : ChildExit) (w1 : World),
    spawn kill_argv w = (inr c1, w1)
    /\ pre = (kill_notice ++ call_events kill_argv c1
                ++ echo_events kill_argv c1
                ++ [EvPrint (Py.Str "OneDrive Killed")])
             ++ launch_notice
    /\ before (EvReaped kill_argv (status c1)) (EvPrint (Py.Str "OneDrive Killed")) pre
    /\ invocations pre = [kill_argv]
    /\ invocations post = [].
Proof.
  intros Hsplit.
  assert (Hpre : forall c1, ~ In (EvRun launch_argv) (kill_phase c1 ++ launch_notice)).
  { intros c1 Hin. unfold kill_phase in Hin.
    repeat (apply in_app_or in Hin; destruct Hin as [Hin | Hin]);
      try (now apply echo_events_no_run in Hin);
      simpl in Hin; intuition discriminate. }
  assert (Hshape : forall c1, invocations (kill_phase c1 ++ launch_notice) = [kill_argv]).
  { intros c1. unfold kill_phase.
    rewrite !invocations_app, echo_events_invocations. reflexivity. }
  assert (Hbefore : forall c1,
             before (EvReaped kill_argv (status c1))
               (EvPrint (Py.Str "OneDrive Killed")) (kill_phase c1 ++ launch_notice)).
  { intros c1.
    exists (kill_notice ++ [EvRun kill_argv; EvTerminal Stderr (wrote_stderr c1)]),
      (echo_events kill_argv c1), launch_notice.
    unfold kill_phase, call_events. now rewrite <- !app_assoc. }
  destruct (run_cases w) as [e w1 Hkill | c1 e w1 w2 Hkill Hlaunch
                            | c1 c2 w1 w2 Hkill Hlaunch]; cbn [events] in Hsplit.
  - exfalso.
    assert (Hin : In (EvRun launch_argv) (kill_notice ++ [EvRun kill_argv])).
    { rewrite Hsplit. apply in_elt. }
    simpl in Hin. intuition discriminate.
  - exists c1, w1.
    rewrite app_assoc in Hsplit.
    destruct (split_unique (EvRun launch_argv) (kill_phase c1 ++ launch_notice)
                [] pre post (Hpre c1) (fun H => H) Hsplit) as [-> ->].
    fold (kill_phase c1). auto.
  - exists c1, w1.
    assert (Hpost : ~ In (EvRun launch_argv)
                      ([EvTerminal Stderr (wrote_stderr c2);
                        EvReaped launch_argv (status c2)]
                         ++ echo_events launch_argv c2
                         ++ [EvPrint (Py.Str "OneDrive open")])).
    { intros H.
      repeat (apply in_app_or in H; destruct H as [H | H]);
        try (now apply echo_events_no_run in H);
        simpl in H; intuition discriminate. }
    destruct (split_unique (EvRun launch_argv) (kill_phase c1 ++ launch_notice)
                _ pre post (Hpre c1) Hpost) as [-> ->].
    { rewrite <- Hsplit. unfold launch_phase, call_events.
      now rewrite <- !app_assoc. }
    fold (kill_phase c1). repeat split; auto.
    rewrite !invocations_app, echo_events_invocations. reflexivity.
Qed.

(** *** When a command cannot be started *)

(** C3: when the host cannot start [killall], the exception
    [subprocess.run] raises ends the run: it reaches the top uncaught, the
    interpreter exits with status 1, [killall] is the only command ever
    called and [open] is not attempted; the last thing printed is the kill
    notice. *)
Theorem kill_failure_aborts (w w1 : World) (e : Py.exception) :
  spawn kill_argv w = (inl e, w1) ->
  ending (run_killod w) = Uncaught e
  /\ exit_status (ending (run_killod w)) = 1%Z
  /\ invocations (events (run_killod w)) = [kill_argv]
  /\ ~ In (EvRun launch_argv) (events (run_killod w))
  /\ console (events (run_killod w))
     = [separator; "Killing OneDrive..."; separator].
Proof.
  intros Hkill. rewrite (run_kill_raises _ _ _ Hkill). simpl.
  repeat split; auto. intuition discriminate.
Qed.

(** *** The echoes *)

(** C4, as the script has it: the result of each of the two calls is
    echoed if and only if the standard output captured from it is not
    empty; what the echo prints is the whole result object, so the line on
    the console is [CompletedProcess(args=..., returncode=..., stdout=b'...')],
    the [repr] of the result, and not the captured text itself. *)
Theorem echo_iff_captured (w w1 w2 : World) (c1 c2 : ChildExit) :
  spawn kill_argv w = (inr c1, w1) ->
  spawn launch_argv w1 = (inr c2, w2) ->
  let tr := events (run_killod w) in
  (In (result_of kill_argv c1) (echoes tr) <-> wrote_stdout c1 <> [])
  /\ (In (result_of launch_argv c2) (echoes tr) <-> wrote_stdout c2 <> [])
  /\ console tr
     = [separator; "Killing OneDrive..."; separator]
         ++ echo_lines kill_argv c1
         ++ ["OneDrive Killed"; separator; "Opening OneDrive..."; separator]
         ++ echo_lines launch_argv c2
         ++ ["OneDrive open"].
Proof.
  intros Hkill Hlaunch tr. subst tr.
  rewrite (run_returns _ _ _ _ _ Hkill Hlaunch). cbn [events].
  assert (Hechoes : echoes (kill_phase c1 ++ launch_phase c2)
                    = echoes (echo_events kill_argv c1)
                        ++ echoes (echo_events launch_argv c2)).
  { unfold kill_phase, launch_phase.
    rewrite !echoes_app. simpl. now rewrite !app_nil_r. }
  rewrite Hechoes. split; [| split].
  - split.
    + intros Hin. apply in_app_or in Hin. destruct Hin as [Hin | Hin].
      * exact (proj1 (echo_events_iff _ _) Hin).
      * unfold echo_events in Hin. destruct (wrote_stdout c2); simpl in Hin.
        -- contradiction.
        -- destruct Hin as [Heq | []]. apply result_of_argv in Heq. discriminate.
    + intros Hout. apply in_or_app. left.
      exact (proj2 (echo_events_iff _ _) Hout).
  - split.
    + intros Hin. apply in_app_or in Hin. destruct Hin as [Hin | Hin].
      * unfold echo_events in Hin. destruct (wrote_stdout c1); simpl in Hin.
        -- contradiction.
        -- destruct Hin as [Heq | []]. apply result_of_argv in Heq. discriminate.
      * exact (proj1 (echo_events_iff _ _) Hin).
    + intros Hout. apply in_or_app. right.
      exact (proj2 (echo_events_iff _ _) Hout).
  - unfold kill_phase, launch_phase.
    rewrite !console_app, !echo_events_lines. simpl.
    now rewrite <- !app_assoc.
Qed.

(** *** The layout of the narration *)

(** C5, as the script has it: three fixed lines come before the call of
    [killall] (separator, Killing OneDrive..., separator), then the echo
    when one is due, then the line OneDrive Killed; three fixed lines come
    before the call of [open] (separator, Opening OneDrive..., separator),
    then the echo when one is due, then the line OneDrive open. *)
Theorem narration_layout (w w1 w2 : World) (c1 c2 : ChildExit) :
  spawn kill_argv w = (inr c1, w1) ->
  spawn launch_argv w1 = (inr c2, w2) ->
  events (run_killod w)
  = (kill_notice ++ call_events kill_argv c1 ++ echo_events kill_argv c1
       ++ [EvPrint (Py.Str "OneDrive Killed")])
    ++ (launch_notice ++ call_events launch_argv c2
          ++ echo_events launch_argv c2
          ++ [EvPrint (Py.Str "OneDrive open")])
  /\ narration kill_notice = [separator; "Killing OneDrive..."; separator]
  /\ narration launch_notice = [separator; "Opening OneDrive..."; separator]
  /\ List.length kill_notice = 3
  /\ List.length launch_notice = 3
  /\ List.length (echo_events kill_argv c1) <= 1
  /\ List.length (echo_events launch_argv c2) <= 1.
Proof.
  intros Hkill Hlaunch.
  rewrite (run_returns _ _ _ _ _ Hkill Hlaunch).
  repeat split; unfold echo_events;
    try (destruct (wrote_stdout c1)); try (destruct (wrote_stdout c2));
    simpl; lia.
Qed.

(** *** A kill that finds nothing *)

(** C7: whatever status [killall] returns, zero or not, and whatever it
    wrote, the script goes on and calls [open]: the commands called are
    [killall] and then [open]. *)
Theorem launch_follows_any_kill_status (w w1 : World) (c1 : ChildExit) :
  spawn kill_argv w = (inr c1, w1) ->
  invocations (events (run_killod w)) = [kill_argv; launch_argv]
  /\ before (EvReaped kill_argv (status c1)) (EvRun launch_argv)
       (events (run_killod w)).
Proof.
  intros Hkill.
  assert (Hinv : forall tail,
             invocations (kill_phase c1 ++ launch_notice
                            ++ EvRun launch_argv :: tail)
             = kill_argv :: launch_argv :: invocations tail).
  { intros tail. unfold kill_phase.
    rewrite !invocations_app, echo_events_invocations. reflexivity. }
  assert (Hbefore : forall tail,
             before (EvReaped kill_argv (status c1)) (EvRun launch_argv)
               (kill_phase c1 ++ launch_notice ++ EvRun launch_argv :: tail)).
  { intros tail.
    exists (kill_notice ++ [EvRun kill_argv; EvTerminal Stderr (wrote_stderr c1)]),
      (echo_events kill_argv c1 ++ [EvPrint (Py.Str "OneDrive Killed")]
         ++ launch_notice), tail.
    unfold kill_phase, call_events. now rewrite <- !app_assoc. }
  destruct (spawn launch_argv w1) as [[e | c2] w2] eqn:Hlaunch.
  - rewrite (run_launch_raises _ _ _ _ _ Hkill Hlaunch). cbn [events].
    split; [apply Hinv | apply Hbefore].
  - rewrite (run_returns _ _ _ _ _ Hkill Hlaunch). cbn [events].
    unfold launch_phase, call_events. cbn [app].
    split.
    + rewrite (Hinv _). cbn [invocations].
      rewrite invocations_app, echo_events_invocations. reflexivity.
    + apply Hbefore.
Qed.

(** *** What is captured *)

(** C9, as the script has it: what each of the script's two calls captures
    is the child's standard output only.  In a run in which [killall]
    returns, the results the script echoes are those of the calls whose
    child wrote on its standard output, whatever it wrote on its standard
    error; each holds that standard output and has no captured standard
    error ([None]).  What the children wrote on their standard error went
    to the terminal through the inherited stream, one write for each call
    that returned, and nothing else reached the terminal that way. *)
Theorem script_captures_stdout_only (w w1 : World) (c1 : ChildExit) :
  spawn kill_argv w = (inr c1, w1) ->
  let tr := events (run_killod w) in
  let kill_echo :=
    match wrote_stdout c1 with
    | [] => []
    | _ :: _ => [Py.mkCompletedProcess kill_argv (status c1)
                   (Some (wrote_stdout c1)) None]
    end in
  match fst (spawn launch_argv w1) with
  | inr c2 =>
      echoes tr
      = kill_echo
          ++ match wrote_stdout c2 with
             | [] => []
             | _ :: _ => [Py.mkCompletedProcess launch_argv (status c2)
                            (Some (wrote_stdout c2)) None]
             end
      /\ terminal_writes tr
         = [(Stderr, wrote_stderr c1); (Stderr, wrote_stderr c2)]
  | inl _ =>
      echoes tr = kill_echo
      /\ terminal_writes tr = [(Stderr, wrote_stderr c1)]
  end.
Proof.
  intros Hkill tr kill_echo. subst tr kill_echo.
  destruct (spawn launch_argv w1) as [[e | c2] w2] eqn:Hlaunch; cbn [fst].
  - rewrite (run_launch_raises _ _ _ _ _ Hkill Hlaunch). cbn [events].
    unfold kill_phase, echo_events, result_of.
    destruct (wrote_stdout c1); split; reflexivity.
  - rewrite (run_returns _ _ _ _ _ Hkill Hlaunch). cbn [events].
    unfold kill_phase, launch_phase, echo_events, result_of.
    destruct (wrote_stdout c1), (wrote_stdout c2); split; reflexivity.
Qed.

End Killod.

Arguments Run World : clear implicits.
Arguments Process World : clear implicits.
Arguments mkProcess {World} world trace.
Arguments world {World} p.
Arguments trace {World} p.
Arguments ending {World} r.
Arguments events {World} r.
Arguments world_after {World} r.
Arguments subprocess_run {World} spawn argv out err p.
Arguments run_killod {World} spawn w.

(** ** Two runs side by side *)

Section TwoRuns.

Variables World World' : Type.
Variable spawn : Spawn World.
Variable spawn' : Spawn World'.


(** C8: any two runs in which both calls return print the same narration,
    the eight fixed lines, whatever the calls found, returned or wrote. *)
Theorem narration_same_in_all_runs
    (w w1 w2 : World) (w' w1' w2' : World') (c1 c2 c1' c2' : ChildExit) :
  spawn kill_argv w = (inr c1, w1) ->
  spawn launch_argv w1 = (inr c2, w2) ->
  spawn' kill_argv w' = (inr c1', w1') ->
  spawn' launch_argv w1' = (inr c2', w2') ->
  narration (events (run_killod spawn w))
  = narration (events (run_killod spawn' w'))
  /\ narration (events (run_killod spawn w))
     = [separator; "Killing OneDrive..."; separator; "OneDrive Killed";
        separator; "Opening OneDrive..."; separator; "OneDrive open"].
Proof.
  intros Hkill Hlaunch Hkill' Hlaunch'.
  rewrite (run_returns _ _ _ _ _ _ _ Hkill Hlaunch).
  rewrite (run_returns _ _ _ _ _ _ _ Hkill' Hlaunch').
  cbn [events].
  rewrite !narration_app, !narration_kill_phase, !narration_launch_phase.
  split; reflexivity.
Qed.

(** C10: the script takes nothing from outside but the answers to its two
    calls.  Two runs, on any two hosts, in which the call of [killall] is
    answered alike and the call of [open] is answered alike (the same
    exception, or the same return code and the same captured standard
    output) print the same lines and end the same way. *)
Theorem output_determined_by_answers (w : World) (w' : World') :
  let k := spawn kill_argv w in
  let k' := spawn' kill_argv w' in
  observed (fst k) = observed (fst k') ->
  observed (fst (spawn launch_argv (snd k)))
  = observed (fst (spawn' launch_argv (snd k'))) ->
  console (events (run_killod spawn w))
  = console (events (run_killod spawn' w'))
  /\ ending (run_killod spawn w) = ending (run_killod spawn' w').
Proof.
  intros k k'. subst k k'.
  destruct (spawn kill_argv w) as [[e | c1] w1] eqn:Hkill;
    destruct (spawn' kill_argv w') as [[e' | c1'] w1'] eqn:Hkill';
    cbn [fst snd]; intros Hobs1 Hobs2; try discriminate Hobs1.
  - injection Hobs1 as ->.
    rewrite (run_kill_raises _ _ _ _ _ Hkill).
    rewrite (run_kill_raises _ _ _ _ _ Hkill').
    split; reflexivity.
  - destruct (spawn launch_argv w1) as [[e | c2] w2] eqn:Hlaunch;
      destruct (spawn' launch_argv w1') as [[e' | c2'] w2'] eqn:Hlaunch';
      cbn [fst] in Hobs2; try discriminate Hobs2.
    + injection Hobs2 as ->.
      rewrite (run_launch_raises _ _ _ _ _ _ _ Hkill Hlaunch).
      rewrite (run_launch_raises _ _ _ _ _ _ _ Hkill' Hlaunch').
      cbn [events ending].
      rewrite !console_app, !console_kill_phase.
      rewrite (echo_lines_observed kill_argv c1 c1' Hobs1).
      split; reflexivity.
    + rewrite (run_returns _ _ _ _ _ _ _ Hkill Hlaunch).
      rewrite (run_returns _ _ _ _ _ _ _ Hkill' Hlaunch').
      cbn [events ending].
      rewrite !console_app, !console_kill_phase, !console_launch_phase.
      rewrite (echo_lines_observed kill_argv c1 c1' Hobs1).
      rewrite (echo_lines_observed launch_argv c2 c2' Hobs2).
      split; reflexivity.
Qed.

End TwoRuns.

(** ** The theorems at work on the example hosts *)

(** On a Mac where OneDrive is not running, [killall] fails with status 1
    and the transcript is the eight lines. *)
Lemma silent_run_transcript_witness :
  mac kill_argv 0 = (inr nothing_to_kill, 0)
  /\ mac launch_argv 0 = (inr done, 1)
  /\ console (events (run_killod mac 0))
     = [separator; "Killing OneDrive..."; separator; "OneDrive Killed";
        separator; "Opening OneDrive..."; separator; "OneDrive open"]
  /\ exit_status (ending (run_killod mac 0)) = 0%Z.
Proof.
  destruct (silent_run_transcript nat mac 0 0 1 nothing_to_kill done
              eq_refl eq_refl eq_refl eq_refl) as (Hconsole & _ & Hexit).
  split; [reflexivity | split; [reflexivity | split]].
  - exact Hconsole.
  - exact Hexit.
Defined.

Lemma launch_after_kill_handled_witness :
  let pre := kill_phase killed_one ++ launch_notice in
  let post := [EvTerminal Stderr (Py.b "warning"); EvReaped launch_argv 3;
               EvPrint (Py.Completed (result_of launch_argv launched));
               EvPrint (Py.Str "OneDrive open")] in
  events (run_killod chatty tt) = pre ++ EvRun launch_argv :: post
  /\ invocations pre = [kill_argv]
  /\ invocations post = [].
Proof.
  intros pre post.
  split; [reflexivity |].
  destruct (launch_after_kill_handled unit chatty tt pre post eq_refl)
    as (c1 & w1 & _ & _ & _ & Hpre & Hpost).
  split; [exact Hpre | exact Hpost].
Defined.

(** On a machine without [killall] the run stops at the first call. *)
Lemma kill_failure_aborts_witness :
  bare kill_argv tt = (inl Py.FileNotFoundError, tt)
  /\ ending (run_killod bare tt) = Uncaught Py.FileNotFoundError
  /\ invocations (events (run_killod bare tt)) = [kill_argv].
Proof.
  destruct (kill_failure_aborts unit bare tt tt Py.FileNotFoundError eq_refl)
    as (Hend & _ & Hinv & _).
  split; [reflexivity | split].
  - exact Hend.
  - exact Hinv.
Defined.

(** C4 as the specification states it fails: [killall] writes
    [killed 1 process] on its standard output, and the script prints the
    [repr] of the whole result; the captured text itself is not a line of
    the output. *)
Lemma echo_is_not_verbatim :
  chatty kill_argv tt = (inr killed_one, tt)
  /\ Py.decode (wrote_stdout killed_one) = "killed 1 process"
  /\ console (events (run_killod chatty tt))
     = [separator; "Killing OneDrive..."; separator;
        "CompletedProcess(args=['killall', 'OneDrive'], returncode=0, stdout=b'killed 1 process')";
        "OneDrive Killed";
        separator; "Opening OneDrive..."; separator;
        "CompletedProcess(args=['open', '-a', 'OneDrive'], returncode=3, stdout=b'x')";
        "OneDrive open"]
  /\ ~ In (Py.decode (wrote_stdout killed_one))
          (console (events (run_killod chatty tt))).
Proof.
  split; [reflexivity | split; [reflexivity | split; [reflexivity |]]].
  vm_compute. intuition discriminate.
Qed.

Lemma echo_iff_captured_witness :
  (In (result_of kill_argv killed_one) (echoes (events (run_killod chatty tt)))
   <-> wrote_stdout killed_one <> [])
  /\ (In (result_of launch_argv done) (echoes (events (run_killod mac 2)))
      <-> wrote_stdout done <> []).
Proof.
  split.
  - exact (proj1 (echo_iff_captured unit chatty tt tt tt killed_one launched
                    eq_refl eq_refl)).
  - exact (proj1 (proj2 (echo_iff_captured nat mac 2 0 1 done done
                           eq_refl eq_refl))).
Defined.

(** C5 as the specification states it fails: three lines, not four, are printed before
    the call of [killall], and seven (three, the line OneDrive Killed, and
    three), not nine, before the call of [open]. *)
Lemma not_four_lines_before_each_call :
  console (upto (is_run_of kill_argv) (events (run_killod mac 0)))
  = [separator; "Killing OneDrive..."; separator]
  /\ List.length (console (upto (is_run_of kill_argv) (events (run_killod mac 0)))) <> 4
  /\ console (upto (is_run_of launch_argv) (events (run_killod mac 0)))
     = [separator; "Killing OneDrive..."; separator; "OneDrive Killed";
        separator; "Opening OneDrive..."; separator]
  /\ List.length (console (upto (is_run_of launch_argv) (events (run_killod mac 0))))
     <> 4 + 1 + 4.
Proof.
  split; [reflexivity | split; [| split; [reflexivity |]]];
    vm_compute; discriminate.
Qed.

Lemma narration_layout_witness :
  mac kill_argv 2 = (inr done, 0)
  /\ mac launch_argv 0 = (inr done, 1)
  /\ events (run_killod mac 2)
     = (kill_notice ++ call_events kill_argv done ++ echo_events kill_argv done
          ++ [EvPrint (Py.Str "OneDrive Killed")])
       ++ (launch_notice ++ call_events launch_argv done
             ++ echo_events launch_argv done
             ++ [EvPrint (Py.Str "OneDrive open")]).
Proof.
  split; [reflexivity | split; [reflexivity |]].
  exact (proj1 (narration_layout nat mac 2 0 1 done done eq_refl eq_refl)).
Defined.


(** No OneDrive process is running: [killall] returns 1, and [open] is
    called all the same. *)
Lemma launch_follows_any_kill_status_witness :
  mac kill_argv 0 = (inr nothing_to_kill, 0)
  /\ status nothing_to_kill = 1%Z
  /\ invocations (events (run_killod mac 0)) = [kill_argv; launch_argv].
Proof.
  split; [reflexivity | split; [reflexivity |]].
  exact (proj1 (launch_follows_any_kill_status nat mac 0 0 nothing_to_kill eq_refl)).
Defined.

Lemma narration_same_in_all_runs_witness :
  narration (events (run_killod mac 0))
  = narration (events (run_killod chatty tt)).
Proof.
  exact (proj1 (narration_same_in_all_runs nat unit mac chatty 0 0 1 tt tt tt
                  nothing_to_kill done killed_one launched
                  eq_refl eq_refl eq_refl eq_refl)).
Defined.

(** C9 as the specification states it fails: [killall] writes its complaint on its
    standard error; the result the script gets holds an empty captured
    output and no captured standard error, the test is false and nothing is
    echoed, while the complaint goes to the terminal. *)
Lemma stderr_is_not_captured :
  mac kill_argv 0 = (inr nothing_to_kill, 0)
  /\ Py.decode (wrote_stderr nothing_to_kill)
     = "No matching processes belonging to you were found"
  /\ wrote_stderr nothing_to_kill <> []
  /\ fst (subprocess_run mac kill_argv PIPE Inherit (mkProcess 0 []))
     = inr (Py.mkCompletedProcess kill_argv 1 (Some []) None)
  /\ echoes (events (run_killod mac 0)) = []
  /\ In (EvTerminal Stderr (wrote_stderr nothing_to_kill))
        (events (run_killod mac 0)).
Proof.
  split; [reflexivity | split; [reflexivity | split; [discriminate |]]].
  split; [reflexivity | split].
  - reflexivity.
  - simpl. repeat (first [left; reflexivity | right]).
Qed.


(** On the chatty host both results are echoed with their standard output
    and without standard error, and the warning [open] wrote on its standard
    error is on the terminal. *)
Lemma script_captures_stdout_only_witness :
  chatty kill_argv tt = (inr killed_one, tt)
  /\ echoes (events (run_killod chatty tt))
     = [Py.mkCompletedProcess kill_argv 0 (Some (Py.b "killed 1 process")) None;
        Py.mkCompletedProcess launch_argv 3 (Some (Py.b "x")) None]
  /\ terminal_writes (events (run_killod chatty tt))
     = [(Stderr, []); (Stderr, Py.b "warning")].
Proof.
  split; [reflexivity |].
  exact (script_captures_stdout_only unit chatty tt tt killed_one eq_refl).
Defined.

(** The Mac and a host that answers the same without the complaint on the
    standard error give the same output. *)
Lemma output_determined_by_answers_witness :
  console (events (run_killod mac 0))
  = console (events (run_killod
                       (fixed_host (inr (mkChildExit 1 [] [])) (inr done)) tt)).
Proof.
  exact (proj1 (output_determined_by_answers nat unit mac
                  (fixed_host (inr (mkChildExit 1 [] [])) (inr done)) 0 tt
                  eq_refl eq_refl)).
Defined.

(** ** Beyond the transcript: what else the script does and never does *)

(** *** An echo stays on its line *)

Lemma one_line_app (s1 s2 : string) :
  one_line (s1 ++ s2)%string = one_line s1 && one_line s2.
Proof.
  induction s1 as [|c s1 IH]; simpl.
  - reflexivity.
  - now rewrite IH, andb_assoc.
Qed.

Lemma one_line_concat (sep : string) (l : list string) :
  one_line sep = true ->
  forallb one_line l = true ->
  one_line (String.concat sep l) = true.
Proof.
  intros Hsep. induction l as [|s l IH]; simpl; intros Hall.
  - reflexivity.
  - apply andb_prop in Hall. destruct Hall as [Hs Hl].
    destruct l as [|s' l].
    + exact Hs.
    + rewrite !one_line_app, Hs, Hsep. simpl. now apply IH.
Qed.

Lemma hexdigit_no_break (n : N) : line_break (Py.hexdigit n) = false.
Proof.
  destruct n as [|p]; [reflexivity |].
  do 4 (try destruct p as [p | p |]; try reflexivity).
Qed.

Lemma pick_quote_cases (s : string) :
  Py.pick_quote s = Py.SQ \/ Py.pick_quote s = Py.DQ.
Proof.
  unfold Py.pick_quote.
  destruct (Py.has_char Py.SQ s && negb (Py.has_char Py.DQ s)); auto.
Qed.

Lemma bytes_plain_printable : printable_only Py.bytes_plain.
Proof.
  intros n H. unfold Py.bytes_plain in H.
  apply andb_prop in H. destruct H as [H _]. now apply N.leb_le.
Qed.

Lemma str_plain_printable : printable_only Py.str_plain.
Proof.
  intros n H. unfold Py.str_plain in H.
  apply andb_prop in H. destruct H as [H _].
  apply andb_prop in H. destruct H as [H _]. now apply N.leb_le.
Qed.

Lemma plain_no_break (plain : N -> bool) (c : ascii) :
  printable_only plain ->
  plain (N_of_ascii c) = true ->
  line_break c = false.
Proof.
  intros Hplain Hc. specialize (Hplain _ Hc).
  unfold line_break.
  destruct (Ascii.eqb c Py.LF) eqn:HLF.
  - apply Ascii.eqb_eq in HLF. subst c. vm_compute in Hplain. now elim Hplain.
  - destruct (Ascii.eqb c Py.CR) eqn:HCR; [| reflexivity].
    apply Ascii.eqb_eq in HCR. subst c. vm_compute in Hplain. now elim Hplain.
Qed.

Lemma escape_char_one_line (plain : N -> bool) (quote c : ascii) :
  printable_only plain ->
  quote = Py.SQ \/ quote = Py.DQ ->
  one_line (Py.escape_char plain quote c) = true.
Proof.
  intros Hplain Hquote. unfold Py.escape_char.
  destruct (Ascii.eqb c quote || Ascii.eqb c "\") eqn:Hq.
  - apply orb_prop in Hq.
    assert (Hc : line_break c = false).
    { destruct Hq as [Hq | Hq]; apply Ascii.eqb_eq in Hq; subst c.
      - now destruct Hquote as [-> | ->].
      - reflexivity. }
    simpl. now rewrite Hc.
  - destruct (Ascii.eqb c Py.HT); [reflexivity |].
    destruct (Ascii.eqb c Py.LF); [reflexivity |].
    destruct (Ascii.eqb c Py.CR); [reflexivity |].
    destruct (plain (N_of_ascii c)) eqn:Hc.
    + simpl. now rewrite (plain_no_break plain c Hplain Hc).
    + unfold Py.hex_escape. cbn [one_line].
      now rewrite !hexdigit_no_break.
Qed.

Lemma escape_one_line (plain : N -> bool) (quote : ascii) (s : string) :
  printable_only plain ->
  quote = Py.SQ \/ quote = Py.DQ ->
  one_line (Py.escape plain quote s) = true.
Proof.
  intros Hplain Hquote. induction s as [|c s IH]; simpl.
  - reflexivity.
  - now rewrite one_line_app, escape_char_one_line, IH.
Qed.

Lemma quoted_one_line (plain : N -> bool) (s : string) :
  printable_only plain ->
  one_line (Py.quoted plain s) = true.
Proof.
  intros Hplain. unfold Py.quoted.
  assert (Hq : line_break (Py.pick_quote s) = false).
  { now destruct (pick_quote_cases s) as [-> | ->]. }
  cbn [one_line]. rewrite Hq, one_line_app.
  rewrite (escape_one_line plain _ s Hplain (pick_quote_cases s)).
  cbn [one_line]. now rewrite Hq.
Qed.

Lemma repr_int_one_line (z : Z) : one_line (Py.repr_int z) = true.
Proof.
  unfold Py.repr_int.
  assert (Huint : forall u, one_line (NilEmpty.string_of_uint u) = true).
  { induction u; simpl; auto. }
  assert (Hzero : forall u, one_line (NilZero.string_of_uint u) = true).
  { intros u. destruct u; try apply (Huint _). reflexivity. }
  destruct (Z.to_int z) as [u | u]; simpl.
  - apply Hzero.
  - apply Hzero.
Qed.

Lemma repr_list_one_line (l : list string) : one_line (Py.repr_list l) = true.
Proof.
  unfold Py.repr_list.
  rewrite !one_line_app. simpl. rewrite andb_true_r.
  apply one_line_concat; [reflexivity |].
  assert (Hstr : forall s, one_line (Py.repr_str s) = true).
  { intros s. apply quoted_one_line, str_plain_printable. }
  induction l as [|s l IH]; cbn [map forallb]; [reflexivity |].
  now rewrite Hstr, IH.
Qed.

Lemma repr_bytes_one_line (data : Py.bytes) :
  one_line (Py.repr_bytes data) = true.
Proof.
  unfold Py.repr_bytes. cbn [one_line].
  now rewrite (quoted_one_line _ _ bytes_plain_printable).
Qed.

Lemma repr_CompletedProcess_head (r : Py.CompletedProcess) :
  exists rest, Py.repr_CompletedProcess r = String "C" rest.
Proof.
  unfold Py.repr_CompletedProcess. cbn [String.append]. eexists. reflexivity.
Qed.

Lemma repr_CompletedProcess_one_line (r : Py.CompletedProcess) :
  one_line (Py.repr_CompletedProcess r) = true.
Proof.
  unfold Py.repr_CompletedProcess.
  rewrite !one_line_app.
  assert (Hfields :
            forallb one_line
              (["args=" ++ Py.repr_list (Py.args r);
                "returncode=" ++ Py.repr_int (Py.returncode r)]%string
                 ++ match Py.stdout r with
                    | Some data => [("stdout" ++ "=" ++ Py.repr_bytes data)%string]
                    | None => []
                    end
                 ++ match Py.stderr r with
                    | Some data => [("stderr" ++ "=" ++ Py.repr_bytes data)%string]
                    | None => []
                    end) = true).
  { rewrite !forallb_app. cbn [forallb].
    rewrite !one_line_app, repr_list_one_line, repr_int_one_line.
    destruct (Py.stdout r), (Py.stderr r); cbn [forallb];
      rewrite ?one_line_app, ?repr_bytes_one_line; reflexivity. }
  rewrite (one_line_concat ", " _ eq_refl Hfields). reflexivity.
Qed.

Lemma repr_CompletedProcess_not_narration (r : Py.CompletedProcess) :
  ~ In (Py.repr_CompletedProcess r) narration_texts.
Proof.
  destruct (repr_CompletedProcess_head r) as [rest ->].
  unfold narration_texts, separator. simpl. intuition discriminate.
Qed.

Section Beyond.

Variable World : Type.
Variable spawn : Spawn World.

Lemma invocations_kill_phase (c : ChildExit) :
  invocations (kill_phase c) = [kill_argv].
Proof.
  unfold kill_phase.
  now rewrite !invocations_app, echo_events_invocations.
Qed.

Lemma invocations_launch_phase (c : ChildExit) :
  invocations (launch_phase c) = [launch_argv].
Proof.
  unfold launch_phase.
  now rewrite !invocations_app, echo_events_invocations.
Qed.

Lemma echo_lines_not_open (argv : list string) (c : ChildExit) :
  ~ In "OneDrive open" (echo_lines argv c).
Proof.
  unfold echo_lines. destruct (wrote_stdout c); simpl; [tauto |].
  destruct (repr_CompletedProcess_head (result_of argv c)) as [rest Hrest].
  intros [H | []]. rewrite Hrest in H. discriminate H.
Qed.

(** X1: when [killall] returns and the host cannot start [open], the
    exception ends the run with status 1 after both commands were called;
    the kill phase and the launch notice are printed in full, and the line
    OneDrive open is not printed. *)
Theorem launch_failure_aborts (w w1 w2 : World) (c1 : ChildExit)
    (e : Py.exception) :
  spawn kill_argv w = (inr c1, w1) ->
  spawn launch_argv w1 = (inl e, w2) ->
  ending (run_killod spawn w) = Uncaught e
  /\ exit_status (ending (run_killod spawn w)) = 1%Z
  /\ invocations (events (run_killod spawn w)) = [kill_argv; launch_argv]
  /\ console (events (run_killod spawn w))
     = [separator; "Killing OneDrive..."; separator]
         ++ echo_lines kill_argv c1
         ++ ["OneDrive Killed"; separator; "Opening OneDrive..."; separator]
  /\ ~ In "OneDrive open" (console (events (run_killod spawn w))).
Proof.
  intros Hkill Hlaunch.
  rewrite (run_launch_raises _ _ _ _ _ _ _ Hkill Hlaunch).
  cbn [ending events exit_status].
  assert (Hconsole : console (kill_phase c1 ++ launch_notice ++ [EvRun launch_argv])
                     = [separator; "Killing OneDrive..."; separator]
                         ++ echo_lines kill_argv c1
                         ++ ["OneDrive Killed"; separator;
                             "Opening OneDrive..."; separator]).
  { rewrite !console_app, console_kill_phase. simpl.
    now rewrite <- !app_assoc. }
  split; [reflexivity | split; [reflexivity | split; [| split]]].
  - now rewrite !invocations_app, invocations_kill_phase.
  - exact Hconsole.
  - rewrite Hconsole. intros Hin.
    apply in_app_or in Hin. destruct Hin as [Hin | Hin].
    { unfold separator in Hin. simpl in Hin. intuition discriminate. }
    apply in_app_or in Hin. destruct Hin as [Hin | Hin].
    { now apply echo_lines_not_open in Hin. }
    unfold separator in Hin. simpl in Hin. intuition discriminate.
Qed.

(** X2: in every run, on every host and however it ends, the script calls
    [killall OneDrive] first and at most [open -a OneDrive] after it, and no
    other command; its narration starts with the kill notice and is a
    beginning of the eight lines. *)
Theorem never_runs_anything_else (w : World) :
  let tr := events (run_killod spawn w) in
  (invocations tr = [kill_argv] \/ invocations tr = [kill_argv; launch_argv])
  /\ (exists rest,
         narration tr
         = [separator; "Killing OneDrive..."; separator] ++ rest)
  /\ (exists rest,
         [separator; "Killing OneDrive..."; separator; "OneDrive Killed";
          separator; "Opening OneDrive..."; separator; "OneDrive open"]
         = narration tr ++ rest).
Proof.
  intros tr. subst tr.
  destruct (run_cases World spawn w) as [e w1 Hkill | c1 e w1 w2 Hkill Hlaunch
                                        | c1 c2 w1 w2 Hkill Hlaunch];
    cbn [events].
  - split; [left; reflexivity | split].
    + exists []. reflexivity.
    + eexists. reflexivity.
  - rewrite !invocations_app, invocations_kill_phase.
    rewrite !narration_app, narration_kill_phase.
    split; [right; reflexivity | split].
    + eexists. reflexivity.
    + eexists. reflexivity.
  - rewrite !invocations_app, invocations_kill_phase, invocations_launch_phase.
    rewrite !narration_app, narration_kill_phase, narration_launch_phase.
    split; [right; reflexivity | split].
    + eexists. reflexivity.
    + exists []. reflexivity.
Qed.

(** X3: the last line on the console is OneDrive open exactly when the run
    finished, that is when both commands were started and returned; after a
    failure to start either command the last line is a separator. *)
Theorem last_line_tells_the_ending (w : World) :
  (List.last (console (events (run_killod spawn w))) EmptyString
   = "OneDrive open"
   <-> ending (run_killod spawn w) = Finished)
  /\ (forall e : Py.exception,
         ending (run_killod spawn w) = Uncaught e ->
         List.last (console (events (run_killod spawn w))) EmptyString
         = separator).
Proof.
  destruct (run_cases World spawn w) as [e w1 Hkill | c1 e w1 w2 Hkill Hlaunch
                                        | c1 c2 w1 w2 Hkill Hlaunch];
    cbn [events ending].
  - simpl. unfold separator. split; [split; discriminate | reflexivity].
  - rewrite !console_app.
    replace (console launch_notice ++ console [EvRun launch_argv])
      with ([separator; "Opening OneDrive..."] ++ [separator])
      by reflexivity.
    rewrite !app_assoc, last_last.
    unfold separator. split; [split; discriminate | reflexivity].
  - rewrite console_app, console_launch_phase.
    rewrite !app_assoc, last_last.
    split; [split; reflexivity | discriminate].
Qed.

(** X5: a run that finished printed the eight narration lines and one line
    for each echo, eight to ten lines in all. *)
Theorem finished_run_line_count (w : World) :
  ending (run_killod spawn w) = Finished ->
  List.length (console (events (run_killod spawn w)))
  = 8 + List.length (echoes (events (run_killod spawn w)))
  /\ List.length (echoes (events (run_killod spawn w))) <= 2.
Proof.
  destruct (run_cases World spawn w) as [e w1 Hkill | c1 e w1 w2 Hkill Hlaunch
                                        | c1 c2 w1 w2 Hkill Hlaunch];
    cbn [events ending]; intros Hend; try discriminate Hend.
  rewrite console_app, console_kill_phase, console_launch_phase.
  unfold kill_phase, launch_phase.
  rewrite !echoes_app, !length_app.
  unfold echo_lines, echo_events.
  destruct (wrote_stdout c1), (wrote_stdout c2); cbn [List.length echoes];
    simpl; lia.
Qed.

Lemma echo_lines_one_line (argv : list string) (c : ChildExit) :
  forallb one_line (echo_lines argv c) = true.
Proof.
  unfold echo_lines. destruct (wrote_stdout c); cbn [forallb].
  - reflexivity.
  - now rewrite repr_CompletedProcess_one_line.
Qed.

(** X4: in every run each text the script prints is one line of the
    console, with no line feed and no carriage return inside, the echoes
    included whatever bytes the child wrote; and no echo is equal to one of
    the narration texts. *)
Theorem every_print_is_one_line (w : World) :
  forallb one_line (console (events (run_killod spawn w))) = true
  /\ (forall r : Py.CompletedProcess,
         In r (echoes (events (run_killod spawn w))) ->
         ~ In (Py.str (Py.Completed r)) narration_texts).
Proof.
  split.
  - destruct (run_cases World spawn w) as [e w1 Hkill | c1 e w1 w2 Hkill Hlaunch
                                          | c1 c2 w1 w2 Hkill Hlaunch];
      cbn [events].
    + reflexivity.
    + rewrite !console_app, console_kill_phase, !forallb_app.
      now rewrite echo_lines_one_line.
    + rewrite !console_app, console_kill_phase, console_launch_phase.
      rewrite !forallb_app. now rewrite !echo_lines_one_line.
  - intros r _. cbn [Py.str]. apply repr_CompletedProcess_not_narration.
Qed.

Lemma terminal_writes_kill_phase (c : ChildExit) :
  terminal_writes (kill_phase c) = [(Stderr, wrote_stderr c)].
Proof.
  unfold kill_phase.
  now rewrite !terminal_writes_app, echo_events_terminal_writes.
Qed.

Lemma terminal_writes_launch_phase (c : ChildExit) :
  terminal_writes (launch_phase c) = [(Stderr, wrote_stderr c)].
Proof.
  unfold launch_phase.
  now rewrite !terminal_writes_app, echo_events_terminal_writes.
Qed.

Lemma echo_lines_from_echoes (argv : list string) (c : ChildExit) (line : string) :
  In line (echo_lines argv c) ->
  exists r, In r (echoes (echo_events argv c))
            /\ line = Py.repr_CompletedProcess r.
Proof.
  unfold echo_lines, echo_events.
  destruct (wrote_stdout c); cbn [In echoes]; [tauto |].
  intros [<- | []]. eexists. split; [left |]; reflexivity.
Qed.

Lemma echoes_kill_phase (c : ChildExit) :
  echoes (kill_phase c) = echoes (echo_events kill_argv c).
Proof.
  unfold kill_phase. rewrite !echoes_app. simpl. now rewrite app_nil_r.
Qed.

Lemma echoes_launch_phase (c : ChildExit) :
  echoes (launch_phase c) = echoes (echo_events launch_argv c).
Proof.
  unfold launch_phase. rewrite !echoes_app. simpl. now rewrite app_nil_r.
Qed.

(** X6: in every run, what a child wrote on its standard output never goes
    to the terminal past the script: the writes of the children that reach
    the terminal are on standard error only.  And every line the script
    prints is one of its five narration texts or the [repr] of a result it
    echoes, so that captured output is on the console only inside an
    echo. *)
Theorem child_stdout_only_inside_echo (w : World) :
  (forall (fd : Stream) (data : Py.bytes),
      In (fd, data) (terminal_writes (events (run_killod spawn w))) ->
      fd = Stderr)
  /\ (forall line : string,
         In line (console (events (run_killod spawn w))) ->
         In line narration_texts
         \/ exists r : Py.CompletedProcess,
              In r (echoes (events (run_killod spawn w)))
              /\ line = Py.repr_CompletedProcess r).
Proof.
  assert (Hfixed : forall line l, In line l ->
                     incl l narration_texts -> In line narration_texts).
  { intros line l Hin Hincl. now apply Hincl. }
  assert (Hkill_lines : incl [separator; "Killing OneDrive..."; separator]
                          narration_texts).
  { unfold narration_texts. intros x Hx. simpl in *. intuition. }
  assert (Hmid_lines : incl ["OneDrive Killed"; separator;
                             "Opening OneDrive..."; separator]
                         narration_texts).
  { unfold narration_texts. intros x Hx. simpl in *. intuition. }
  destruct (run_cases World spawn w) as [e w1 Hkill | c1 e w1 w2 Hkill Hlaunch
                                        | c1 c2 w1 w2 Hkill Hlaunch];
    cbn [events].
  - split.
    + intros fd data [].
    + intros line Hin. left. now apply (Hfixed _ _ Hin).
  - split.
    + intros fd data Hin.
      rewrite !terminal_writes_app, terminal_writes_kill_phase in Hin.
      simpl in Hin. destruct Hin as [Heq | []]. now inversion Heq.
    + intros line Hin.
      rewrite !echoes_app, echoes_kill_phase. simpl. rewrite app_nil_r.
      rewrite !console_app, console_kill_phase in Hin.
      repeat (apply in_app_or in Hin; destruct Hin as [Hin | Hin]).
      * left. now apply (Hfixed _ _ Hin).
      * right. now apply echo_lines_from_echoes.
      * left. apply (Hfixed _ _ Hin). intros x [<- | []]. apply Hmid_lines. now left.
      * left. apply (Hfixed _ _ Hin). intros x Hx. apply Hmid_lines. now right.
      * destruct Hin.
  - split.
    + intros fd data Hin.
      rewrite !terminal_writes_app, terminal_writes_kill_phase,
        terminal_writes_launch_phase in Hin.
      simpl in Hin. destruct Hin as [Heq | [Heq | []]]; now inversion Heq.
    + intros line Hin.
      rewrite !echoes_app, echoes_kill_phase, echoes_launch_phase.
      rewrite !console_app, console_kill_phase, console_launch_phase in Hin.
      repeat (apply in_app_or in Hin; destruct Hin as [Hin | Hin]).
      * left. now apply (Hfixed _ _ Hin).
      * right. destruct (echo_lines_from_echoes _ _ _ Hin) as (r & Hr & ->).
        exists r. split; [apply in_or_app; now left | reflexivity].
      * left. apply (Hfixed _ _ Hin). intros x [<- | []]. apply Hmid_lines. now left.
      * left. apply (Hfixed _ _ Hin). intros x Hx. simpl in Hx.
        unfold narration_texts. simpl. intuition.
      * right. destruct (echo_lines_from_echoes _ _ _ Hin) as (r & Hr & ->).
        exists r. split; [apply in_or_app; now right | reflexivity].
      * left. apply (Hfixed _ _ Hin). intros x [<- | []].
        unfold narration_texts. simpl. intuition.
Qed.

End Beyond.

(** On the Linux machine the run stops at [open]: the kill phase is on the
    console and OneDrive open is not. *)
Lemma launch_failure_aborts_witness :
  linux kill_argv tt = (inr nothing_to_kill, tt)
  /\ linux launch_argv tt = (inl Py.FileNotFoundError, tt)
  /\ ending (run_killod linux tt) = Uncaught Py.FileNotFoundError
  /\ console (events (run_killod linux tt))
     = [separator; "Killing OneDrive..."; separator; "OneDrive Killed";
        separator; "Opening OneDrive..."; separator].
Proof.
  destruct (launch_failure_aborts unit linux tt tt tt nothing_to_kill
              Py.FileNotFoundError eq_refl eq_refl)
    as (Hend & _ & _ & Hconsole & _).
  split; [reflexivity | split; [reflexivity | split]].
  - exact Hend.
  - exact Hconsole.
Defined.

Lemma finished_run_line_count_witness :
  ending (run_killod chatty tt) = Finished
  /\ List.length (console (events (run_killod chatty tt))) = 10.
Proof.
  split; [reflexivity |].
  exact (proj1 (finished_run_line_count unit chatty tt eq_refl)).
Defined.
